(** * Shallow embedding of src/imap_handler.py

    The module defines a chain-of-responsibility pipeline of three handlers:
    [ImapHandler] (builds an [EmailData] record from a request dict),
    [AuthenticationHandler] (opens and logs into an IMAP and an SMTP
    session) and [GetMessageHandler] (selects INBOX, searches ALL, fetches
    every message and prints its headers).

    Effects are modelled by a writer/error monad: a computation returns a
    Python-level result (a value or a raised exception) together with the
    trace of observable events it performed (network operations, prints,
    and the invocation of a stage's [execute]).  The network servers and
    the e-mail library are external collaborators; their behaviour is a
    record [Env] of functions, fixed for one run. *)

From stdpp Require Import base gmap strings list.
From Stdlib Require Import ZArith Ascii.
Open Scope string_scope.
Open Scope list_scope.
#[local] Set Warnings "-register-all".

(* ------------------------------------------------------------------ *)
(** ** Python values and exceptions *)

(** The two kinds of connection object created by [AuthenticationHandler]:
    [imaplib.IMAP4_SSL] and [smtplib.SMTP_SSL]. *)
Inductive conn_kind := ImapConn | SmtpConn.

(** The [EmailData] pydantic model (lines 13-19). *)
Record EmailData := mkEmailData {
  user_name : string;
  password : string;
  imap_ssl_port : Z;
  imap_ssl_host : string;
  smtp_ssl_port : Z;
  smtp_ssl_host : string
}.

(** The Python values that flow through the chain.  A dict is an
    association list with unique keys, a tuple a list of values. *)
Inductive pyval :=
  | PNone
  | PBool (b : bool)
  | PInt (z : Z)
  | PStr (s : string)
  | PDict (d : list (string * pyval))
  | PTuple (l : list pyval)
  | PEmail (e : EmailData)
  | PConn (k : conn_kind).

(** Python truthiness, as used by [if response:] (line 47).  A pydantic
    model and a connection object define neither [__bool__] nor [__len__],
    so they are truthy. *)
Definition truthy (v : pyval) : bool :=
  match v with
  | PNone => false
  | PBool b => b
  | PInt z => negb (Z.eqb z 0)
  | PStr s => negb (String.eqb s "")
  | PDict d => negb (Nat.eqb (length d) 0)
  | PTuple l => negb (Nat.eqb (length l) 0)
  | PEmail _ => true
  | PConn _ => true
  end.

(** Exceptions.  [ServerError] carries whatever an external collaborator
    (socket, imaplib, smtplib, codec) raises, identified by a name. *)
Inductive exn :=
  | KeyError (k : string)
  | ValidationError
  | TypeError
  | AttributeError
  | ValueError
  | IndexError
  | RecursionError
  | ServerError (name : string).

Inductive res (A : Type) :=
  | Ok (a : A)
  | Err (e : exn).
Arguments Ok {A} a.
Arguments Err {A} e.

(* ------------------------------------------------------------------ *)
(** ** Observable events *)

Definition loc := nat.

Inductive event :=
  | EvExecute (l : loc)                       (* a stage's execute is entered *)
  | EvImapConnect (host : string) (port : Z)  (* imaplib.IMAP4_SSL(host, port) *)
  | EvImapLogin (user pw : string)            (* imap_server.login *)
  | EvSmtpConnect (host : string) (port : Z)  (* smtplib.SMTP_SSL(host, port) *)
  | EvSmtpLogin (user pw : string)            (* smtp_server.login *)
  | EvSelect (mbox : string)                  (* imap_server.select *)
  | EvSearch (charset : option string) (criterion : string)
  | EvFetch (num : string) (parts : string)   (* imap_server.fetch *)
  | EvPrint (h : string * string)             (* print(h) of a header item *)
  | EvClose.                                  (* imap_server.close() *)

(* ------------------------------------------------------------------ *)
(** ** Writer/error monad *)

Definition M (A : Type) : Type := res A * list event.

Definition ret {A} (a : A) : M A := (Ok a, []).
Definition raise {A} (e : exn) : M A := (Err e, []).
Definition tell (ev : event) : M unit := (Ok tt, [ev]).

Definition bind {A B} (m : M A) (f : A -> M B) : M B :=
  match m with
  | (Ok a, t) => let '(r, t') := f a in (r, t ++ t')
  | (Err e, t) => (Err e, t)
  end.

Notation "x <-- m ;; k" := (bind m (fun x => k))
  (at level 100, m at level 99, right associativity).
Notation "m ;;; k" := (bind m (fun _ : unit => k))
  (at level 100, right associativity).

(** Lift a result of an external call into the monad. *)
Definition lift {A} (r : res A) : M A := (r, []).

(* ------------------------------------------------------------------ *)
(** ** External collaborators *)

(** An element of the data list returned by [imaplib.IMAP4.fetch]: a
    [(envelope, raw_message)] tuple, a bare bytes object, or [None]. *)
Inductive fetch_item :=
  | FPair (envelope raw : string)
  | FBytes (b : string)
  | FNone.

(** Behaviour of the servers and libraries during one run.  Each call
    either returns normally or raises; the values returned by [select]
    and the status words of [search]/[fetch] are ignored by the code and
    are not modelled.  [env_header_items s] is
    [HeaderParser().parsestr(message_from_string(s).as_string()).items()].
    [env_int_from_str s] is pydantic's parsing of a [str] given for an
    [int] field ([None] when pydantic rejects it); the accepted forms
    differ between pydantic versions. *)
Record Env := mkEnv {
  env_imap_connect : string -> Z -> res unit;
  env_imap_login : string -> string -> res unit;
  env_smtp_connect : string -> Z -> res unit;
  env_smtp_login : string -> string -> res unit;
  env_select : string -> res unit;
  env_search : option string -> string -> res (list (option string));
  env_fetch : string -> string -> res (list fetch_item);
  env_decode_utf8 : string -> res string;
  env_header_items : string -> list (string * string);
  env_close : res unit;
  env_int_from_str : string -> option Z
}.

(* ------------------------------------------------------------------ *)
(** ** pydantic validation of [EmailData] (lax mode) *)

Definition digit_val (c : ascii) : option Z :=
  let n := nat_of_ascii c in
  if (48 <=? n)%nat && (n <=? 57)%nat then Some (Z.of_nat (n - 48)) else None.

Fixpoint digits_go (acc : Z) (s : string) : option Z :=
  match s with
  | EmptyString => Some acc
  | String c r =>
      match digit_val c with
      | Some d => digits_go (acc * 10 + d)%Z r
      | None => None
      end
  end.

(** A non-empty run of decimal digits. *)
Definition digits (s : string) : option Z :=
  match s with
  | EmptyString => None
  | _ => digits_go 0 s
  end.

(** A parser of plain, optionally signed decimal numerals.  The concrete
    environments below use it as their [env_int_from_str]; pydantic also
    accepts further forms (surrounding whitespace, digit separators, a
    zero fraction in version 2) and bounds the length, which those
    environments are never given. *)
Definition parse_int_str (s : string) : option Z :=
  match s with
  | String "-" r => option_map Z.opp (digits r)
  | String "+" r => digits r
  | _ => digits s
  end.

(** Coercion of an input value to an [int] field: ints as they are,
    bools as 0/1, strings through pydantic's parser [int_from_str];
    anything else is rejected. *)
Definition coerce_int (int_from_str : string -> option Z) (v : pyval)
    : option Z :=
  match v with
  | PInt z => Some z
  | PBool b => Some (if b then 1 else 0)%Z
  | PStr s => int_from_str s
  | _ => None
  end.

(** Coercion to a [str] field: only strings are accepted. *)
Definition coerce_str (v : pyval) : option string :=
  match v with
  | PStr s => Some s
  | _ => None
  end.

(** [EmailData(user_name=..., ...)]: all fields are validated and any
    failure raises one [ValidationError]. *)
Definition EmailData_validate (int_from_str : string -> option Z)
    (u p ip ih sp sh : pyval) : res EmailData :=
  match coerce_str u, coerce_str p, coerce_int int_from_str ip, coerce_str ih,
        coerce_int int_from_str sp, coerce_str sh with
  | Some u', Some p', Some ip', Some ih', Some sp', Some sh' =>
      Ok (mkEmailData u' p' ip' ih' sp' sh')
  | _, _, _, _, _, _ => Err ValidationError
  end.


(* ------------------------------------------------------------------ *)
(** ** Small Python operations *)

Fixpoint dict_lookup (d : list (string * pyval)) (k : string) : option pyval :=
  match d with
  | [] => None
  | (k', v) :: d' => if String.eqb k k' then Some v else dict_lookup d' k
  end.

(** [request[k]] with a string key. *)
Definition getitem (req : pyval) (k : string) : res pyval :=
  match req with
  | PDict d =>
      match dict_lookup d k with
      | Some v => Ok v
      | None => Err (KeyError k)
      end
  | _ => Err TypeError
  end.

(** [a, b = request]: iterable unpacking into two names.  A string
    iterates over its characters, a dict over its keys, a pydantic model
    over its six [(name, value)] pairs; other values are not iterable.
    Dicts of [pyval] have string keys only, so a dict keyed by the two
    sessions (which Python would unpack to them) is outside the model. *)
Definition unpack2 (v : pyval) : res (pyval * pyval) :=
  match v with
  | PTuple [a; b] => Ok (a, b)
  | PTuple _ => Err ValueError
  | PStr (String a (String b EmptyString)) =>
      Ok (PStr (String a EmptyString), PStr (String b EmptyString))
  | PStr _ => Err ValueError
  | PDict [(k1, _); (k2, _)] => Ok (PStr k1, PStr k2)
  | PDict _ => Err ValueError
  | PEmail _ => Err ValueError
  | _ => Err TypeError
  end.

(** ASCII whitespace, as used by [bytes.split()]. *)
Definition is_ws (c : ascii) : bool :=
  let n := nat_of_ascii c in
  (n =? 32)%nat || ((9 <=? n)%nat && (n <=? 13)%nat).

Definition cons_word (w : string) (ws : list string) : list string :=
  if String.eqb w "" then ws else w :: ws.

Fixpoint split_go (s : string) : string * list string :=
  match s with
  | EmptyString => ("", [])
  | String c r =>
      let '(w, ws) := split_go r in
      if is_ws c then ("", cons_word w ws) else (String c w, ws)
  end.

(** [b.split()]: the maximal runs of non-whitespace bytes. *)
Definition split_ws (s : string) : list string :=
  let '(w, ws) := split_go s in cons_word w ws.

(* ------------------------------------------------------------------ *)
(** ** The three stages' [execute] *)

Section Stages.
Variable env : Env.

(** [ImapHandler.execute] (lines 54-61): the six subscripts are evaluated
    in argument order, then the model is validated. *)
Definition imap_execute (request : pyval) : M pyval :=
  u <-- lift (getitem request "user_name") ;;
  p <-- lift (getitem request "password") ;;
  ip <-- lift (getitem request "imap_ssl_port") ;;
  ih <-- lift (getitem request "imap_ssl_host") ;;
  sp <-- lift (getitem request "smtp_ssl_port") ;;
  sh <-- lift (getitem request "smtp_ssl_host") ;;
  e <-- lift (EmailData_validate (env_int_from_str env) u p ip ih sp sh) ;;
  ret (PEmail e).

(** [AuthenticationHandler.execute] (lines 68-73).  Reading the
    attributes of a value that is not an [EmailData] raises
    [AttributeError] before any connection is made. *)
Definition auth_execute (request : pyval) : M pyval :=
  match request with
  | PEmail r =>
      tell (EvImapConnect (imap_ssl_host r) (imap_ssl_port r)) ;;;
      lift (env_imap_connect env (imap_ssl_host r) (imap_ssl_port r)) ;;;
      tell (EvImapLogin (user_name r) (password r)) ;;;
      lift (env_imap_login env (user_name r) (password r)) ;;;
      tell (EvSmtpConnect (smtp_ssl_host r) (smtp_ssl_port r)) ;;;
      lift (env_smtp_connect env (smtp_ssl_host r) (smtp_ssl_port r)) ;;;
      tell (EvSmtpLogin (user_name r) (password r)) ;;;
      lift (env_smtp_login env (user_name r) (password r)) ;;;
      ret (PTuple [PConn ImapConn; PConn SmtpConn])
  | _ => raise AttributeError
  end.

(** A method of [imaplib.IMAP4_SSL] called on [v]: any other value has
    no such attribute. *)
Definition as_imap (v : pyval) : res unit :=
  match v with
  | PConn ImapConn => Ok tt
  | _ => Err AttributeError
  end.

(** [__select_mail_box] (lines 117-118). *)
Definition select_mail_box (imap_server : pyval) : M unit :=
  lift (as_imap imap_server) ;;;
  tell (EvSelect "INBOX") ;;;
  lift (env_select env "INBOX").

(** [__search_mail_box] (lines 113-115), returning [data]. *)
Definition search_mail_box (imap_server : pyval) (criterion : string)
    : M (list (option string)) :=
  lift (as_imap imap_server) ;;;
  tell (EvSearch None criterion) ;;;
  lift (env_search env None criterion).

(** [data[0]] followed by [.split()] (line 84). *)
Definition first_split (data : list (option string)) : res (list string) :=
  match data with
  | [] => Err IndexError
  | None :: _ => Err AttributeError
  | Some b :: _ => Ok (split_ws b)
  end.

(** [__fetch_message] (lines 109-111), returning [data]. *)
Definition fetch_message (imap_server : pyval) (num : string)
    : M (list fetch_item) :=
  lift (as_imap imap_server) ;;;
  tell (EvFetch num "(RFC822)") ;;;
  lift (env_fetch env num "(RFC822)").

(** [data[0][1]] (line 106). *)
Definition fetch_raw (data : list fetch_item) : res string :=
  match data with
  | [] => Err IndexError
  | FPair _ raw :: _ => Ok raw
  | FBytes b :: _ => if (2 <=? String.length b)%nat then Err AttributeError
                     else Err IndexError
  | FNone :: _ => Err TypeError
  end.

(** [__decode_message] (lines 105-107). *)
Definition decode_message (data : list fetch_item) : M string :=
  raw <-- lift (fetch_raw data) ;;
  lift (env_decode_utf8 env raw).

(** [__print_header] (lines 96-98). *)
Fixpoint print_header (items : list (string * string)) : M unit :=
  match items with
  | [] => ret tt
  | h :: hs => tell (EvPrint h) ;;; print_header hs
  end.

(** One iteration of the loop body (lines 85-90). *)
Definition process_num (imap_server : pyval) (num : string) : M unit :=
  data <-- fetch_message imap_server num ;;
  message <-- decode_message data ;;
  print_header (env_header_items env message).

(** [for num in data[0].split(): ...] (lines 84-90). *)
Fixpoint for_each_num (imap_server : pyval) (nums : list string) : M unit :=
  match nums with
  | [] => ret tt
  | num :: rest => process_num imap_server num ;;; for_each_num imap_server rest
  end.

(** [__close_imap_server] (lines 93-94). *)
Definition close_imap_server (imap_server : pyval) : M unit :=
  lift (as_imap imap_server) ;;;
  tell EvClose ;;;
  lift (env_close env).

(** [GetMessageHandler.execute] (lines 80-91); it returns [None]. *)
Definition get_message_execute (request : pyval) : M pyval :=
  servers <-- lift (unpack2 request) ;;
  let imap_server := fst servers in
  select_mail_box imap_server ;;;
  data <-- search_mail_box imap_server "ALL" ;;
  nums <-- lift (first_split data) ;;
  for_each_num imap_server nums ;;;
  close_imap_server imap_server ;;;
  ret PNone.

End Stages.

(* ------------------------------------------------------------------ *)
(** ** Handler objects and the chain *)

(** The class of a handler object.  Besides the three classes of the
    module, [OtherHandler] stands for any further subclass of
    [AbstractHandler] that, like the three, inherits [handle] and defines
    its own [execute]. *)
Inductive kind :=
  | ImapHandler
  | AuthenticationHandler
  | GetMessageHandler
  | OtherHandler (exec : pyval -> M pyval).

(** A handler instance: its class and the [_next_handler] entry of its
    instance [__dict__] ([None] when the instance has no such entry). *)
Record obj := mkObj {
  obj_kind : kind;
  obj_next : option (option loc)
}.

(** The class attribute [_next_handler: Handler = None] of
    [AbstractHandler] (line 37), shared by every subclass. *)
Definition class_next_handler : option loc := None.

(** Attribute lookup [self._next_handler]: the instance [__dict__] first,
    then the class attribute. *)
Definition next_handler (o : obj) : option loc :=
  match obj_next o with
  | Some v => v
  | None => class_next_handler
  end.

(** The objects alive in the program. *)
Abbreviation heap := (gmap loc obj).

Definition lookup_next (h : heap) (l : loc) : option loc :=
  match h !! l with
  | Some o => next_handler o
  | None => None
  end.

(** [AbstractHandler.set_prev] (lines 39-41): the assignment
    [self._next_handler = handler] writes the instance [__dict__]; the
    handler passed in is returned. *)
Definition set_prev (h : heap) (self handler : loc) : heap * loc :=
  (alter (fun o => mkObj (obj_kind o) (Some (Some handler))) self h, handler).

Definition execute (env : Env) (k : kind) (request : pyval) : M pyval :=
  match k with
  | ImapHandler => imap_execute env request
  | AuthenticationHandler => auth_execute env request
  | GetMessageHandler => get_message_execute env request
  | OtherHandler f => f request
  end.

(** [AbstractHandler.handle] (lines 43-50), which every subclass calls
    through [super().handle(request)].  [fuel] bounds the recursion depth
    as the interpreter's recursion limit does.  When the predecessor's
    response is falsy the [if] has no [else] and the method falls off its
    end, returning [None]. *)
Fixpoint handle (fuel : nat) (env : Env) (h : heap) (self : loc)
    (request : pyval) : M pyval :=
  match fuel with
  | O => raise RecursionError
  | S n =>
      match h !! self with
      | None => raise AttributeError
      | Some o =>
          match next_handler o with
          | Some prev =>
              response <-- handle n env h prev request ;;
              if truthy response
              then tell (EvExecute self) ;;; execute env (obj_kind o) response
              else ret PNone
          | None => tell (EvExecute self) ;;; execute env (obj_kind o) request
          end
      end
  end.

(** [client_code] (lines 124-125). *)
Definition client_code (fuel : nat) (env : Env) (h : heap) (handler : loc)
    (request : pyval) : M pyval :=
  handle fuel env h handler request.

(** The [__main__] block (lines 128-133): three fresh handlers, then
    [msg.set_prev(auth).set_prev(imap)]. *)
Definition loc_imap : loc := 1%nat.
Definition loc_auth : loc := 2%nat.
Definition loc_msg : loc := 3%nat.

Definition fresh_heap : heap :=
  <[loc_imap := mkObj ImapHandler None]>
  (<[loc_auth := mkObj AuthenticationHandler None]>
  (<[loc_msg := mkObj GetMessageHandler None]> ∅)).

Definition main_heap : heap :=
  let '(h1, r1) := set_prev fresh_heap loc_msg loc_auth in
  fst (set_prev h1 r1 loc_imap).

(** The request dict of the [__main__] block (lines 134-141). *)
Definition main_request : pyval :=
  PDict [("user_name", PStr "roboket.test@gmail.com");
         ("password", PStr "DDFlkjlkj.78908$%");
         ("imap_ssl_port", PInt 993);
         ("imap_ssl_host", PStr "imap.gmail.com");
         ("smtp_ssl_port", PInt 465);
         ("smtp_ssl_host", PStr "smtp.gmail.com")].

(** The classes defined in the module. *)
Definition source_kind (k : kind) : bool :=
  match k with
  | ImapHandler | AuthenticationHandler | GetMessageHandler => true
  | OtherHandler _ => false
  end.

(** A heap whose handlers are all instances of the module's classes. *)
Definition source_only (h : heap) : Prop :=
  map_Forall (fun _ o => source_kind (obj_kind o) = true) h.

(** A server pair that accepts every command and holds an empty INBOX. *)
Definition quiet_env : Env := mkEnv
  (fun _ _ => Ok tt) (fun _ _ => Ok tt) (fun _ _ => Ok tt) (fun _ _ => Ok tt)
  (fun _ => Ok tt) (fun _ _ => Ok [Some ""])
  (fun _ _ => Ok []) (fun raw => Ok raw) (fun _ => []) (Ok tt) parse_int_str.

(** Two subclasses of [AbstractHandler] outside the module: one whose
    [execute] returns [0], linked before one that records its input. *)
Definition falsy_heap : heap :=
  <[1%nat := mkObj (OtherHandler (fun _ => ret (PInt 0))) None]>
  (<[2%nat := mkObj (OtherHandler (fun v => ret (PTuple [v]))) (Some (Some 1%nat))]> ∅).

(** The enumerator linked before the builder: the builder's predecessor
    returns [None]. *)
Definition enum_first_heap : heap :=
  <[1%nat := mkObj GetMessageHandler None]>
  (<[2%nat := mkObj ImapHandler (Some (Some 1%nat))]> ∅).

Definition session_pair : pyval := PTuple [PConn ImapConn; PConn SmtpConn].

(** The keys read by [ImapHandler.execute], in evaluation order. *)
Definition required_keys : list string :=
  ["user_name"; "password"; "imap_ssl_port"; "imap_ssl_host";
   "smtp_ssl_port"; "smtp_ssl_host"].


(** Events of the SMTP session. *)
Definition is_smtp_event (ev : event) : bool :=
  match ev with
  | EvSmtpConnect _ _ | EvSmtpLogin _ _ => true
  | _ => false
  end.

(** The header lines printed in a trace, in order. *)
Definition printed (t : list event) : list (string * string) :=
  omap (fun ev => match ev with EvPrint h => Some h | _ => None end) t.

(** The message numbers fetched in a trace, in order. *)
Definition fetched (t : list event) : list string :=
  omap (fun ev => match ev with EvFetch n _ => Some n | _ => None end) t.

(** The number of [close()] calls in a trace. *)
Fixpoint close_count (t : list event) : nat :=
  match t with
  | [] => 0
  | EvClose :: t' => S (close_count t')
  | _ :: t' => close_count t'
  end.

(** [quiet_env] with the IMAP login rejected (a wrong password). *)
Definition bad_login_env : Env := mkEnv
  (fun _ _ => Ok tt) (fun _ _ => Err (ServerError "IMAP4.error"))
  (fun _ _ => Ok tt) (fun _ _ => Ok tt)
  (fun _ => Ok tt) (fun _ _ => Ok [Some ""])
  (fun _ _ => Ok []) (fun raw => Ok raw) (fun _ => []) (Ok tt) parse_int_str.

(** A mailbox whose search returns the numbers 1 and 2, carrying the
    headers of the two messages of the enumeration scenario. *)
Definition two_msg_env : Env := mkEnv
  (fun _ _ => Ok tt) (fun _ _ => Ok tt) (fun _ _ => Ok tt) (fun _ _ => Ok tt)
  (fun _ => Ok tt) (fun _ _ => Ok [Some "1 2"])
  (fun n _ => Ok [FPair (n +:+ " (RFC822 {0}") n; FBytes ")"])
  (fun raw => Ok raw)
  (fun s => if String.eqb s "1" then [("From", "a@x.com"); ("Subject", "hi")]
            else [("From", "b@x.com"); ("Subject", "yo")])
  (Ok tt) parse_int_str.

(** [two_msg_env] whose second message cannot be fetched. *)
Definition broken_fetch_env : Env := mkEnv
  (fun _ _ => Ok tt) (fun _ _ => Ok tt) (fun _ _ => Ok tt) (fun _ _ => Ok tt)
  (fun _ => Ok tt) (fun _ _ => Ok [Some "1 2 3"])
  (fun n _ => if String.eqb n "2" then Err (ServerError "IMAP4.abort")
              else Ok [FPair "" n; FBytes ")"])
  (fun raw => Ok raw) (fun _ => [("From", "a@x.com")]) (Ok tt) parse_int_str.

(** A handler linked before itself: [imap.set_prev(imap)]. *)
Definition self_linked_heap : heap :=
  <[loc_imap := mkObj ImapHandler (Some (Some loc_imap))]> ∅.

(** The stages whose [execute] is entered in a trace, in order. *)
Definition executes (t : list event) : list loc :=
  omap (fun ev => match ev with EvExecute l => Some l | _ => None end) t.

(** The chain ending at [s], from its head (the handler with no
    predecessor) to [s], following [_next_handler] at most [fuel] times. *)
Fixpoint chain_path (fuel : nat) (h : heap) (s : loc) : list loc :=
  match fuel with
  | O => []
  | S n =>
      match h !! s with
      | None => []
      | Some o =>
          match next_handler o with
          | Some p => chain_path n h p ++ [s]
          | None => [s]
          end
      end
  end.

(** [main_request] with an additional, unused key. *)
Definition extra_key_request : pyval :=
  PDict (("imap_folder", PStr "Archive") ::
         [("user_name", PStr "roboket.test@gmail.com");
          ("password", PStr "DDFlkjlkj.78908$%");
          ("imap_ssl_port", PInt 993);
          ("imap_ssl_host", PStr "imap.gmail.com");
          ("smtp_ssl_port", PInt 465);
          ("smtp_ssl_host", PStr "smtp.gmail.com")]).

(** [quiet_env] whose search response carries no data line. *)
Definition no_data_env : Env := mkEnv
  (fun _ _ => Ok tt) (fun _ _ => Ok tt) (fun _ _ => Ok tt) (fun _ _ => Ok tt)
  (fun _ => Ok tt) (fun _ _ => Ok [])
  (fun _ _ => Ok []) (fun raw => Ok raw) (fun _ => []) (Ok tt) parse_int_str.

(* ================================================================== *)
(** * Properties *)

(** ** Monad and heap facts *)

Lemma bind_ret {A B} (a : A) (f : A -> M B) : bind (ret a) f = f a.
Proof. unfold bind, ret. by destruct (f a). Qed.

Lemma bind_ok {A B} (a : A) t (f : A -> M B) :
  bind (Ok a, t) f = (fst (f a), t ++ snd (f a)).
Proof. unfold bind. by destruct (f a). Qed.

Lemma bind_err {A B} e t (f : A -> M B) : bind (Err e, t) f = (Err e, t).
Proof. reflexivity. Qed.

Lemma lookup_next_set_prev_eq (h : heap) (s p : loc) :
  is_Some (h !! s) -> lookup_next (fst (set_prev h s p)) s = Some p.
Proof.
  intros [o Ho]. unfold lookup_next, set_prev. simpl.
  rewrite lookup_alter_eq, Ho. reflexivity.
Qed.

Lemma lookup_next_set_prev_ne (h : heap) (s p s' : loc) :
  s' <> s -> lookup_next (fst (set_prev h s p)) s' = lookup_next h s'.
Proof.
  intros Hne. unfold lookup_next, set_prev. simpl.
  rewrite lookup_alter_ne by congruence. reflexivity.
Qed.

Lemma set_prev_dom (h : heap) (s p s' : loc) :
  is_Some (fst (set_prev h s p) !! s') <-> is_Some (h !! s').
Proof. unfold set_prev. simpl. apply lookup_alter_is_Some. Qed.

(* ------------------------------------------------------------------ *)
(** ** Linking handlers *)

(** C10: [set_prev] writes the predecessor into the instance [__dict__]
    of the handler it is called on.  The handler's predecessor becomes
    [p]; a later [set_prev] on it replaces [p]; no other handler's
    predecessor changes, also for handlers that still read the shared
    class attribute [_next_handler = None]. *)
Theorem set_prev_per_instance (h : heap) (s p : loc) :
  is_Some (h !! s) ->
  lookup_next (fst (set_prev h s p)) s = Some p /\
  (forall q, lookup_next (fst (set_prev (fst (set_prev h s p)) s q)) s = Some q) /\
  (forall s', s' <> s -> lookup_next (fst (set_prev h s p)) s' = lookup_next h s') /\
  (forall o, h !! s = Some o -> obj_next o = None -> lookup_next h s = None).
Proof.
  intros Hs. split; [by apply lookup_next_set_prev_eq|]. split.
  { intros q. apply lookup_next_set_prev_eq. by apply set_prev_dom. }
  split; [intros; by apply lookup_next_set_prev_ne|].
  intros o Ho Hn. unfold lookup_next, next_handler. by rewrite Ho, Hn.
Qed.

Lemma set_prev_per_instance_witness :
  is_Some (fresh_heap !! loc_auth) /\
  lookup_next (fst (set_prev fresh_heap loc_auth loc_imap)) loc_auth = Some loc_imap.
Proof.
  assert (H : is_Some (fresh_heap !! loc_auth)) by (eexists; reflexivity).
  split; [exact H|].
  exact (proj1 (set_prev_per_instance fresh_heap loc_auth loc_imap H)).
Defined.

(** C4: [stage.set_prev(pred)] records [pred] as [stage]'s predecessor
    and returns [pred]; so [enum.set_prev(auth).set_prev(builder)] links
    the builder before the authenticator before the enumerator. *)
Theorem set_prev_fluent_chain (h : heap) (enum auth builder : loc) :
  enum <> auth -> auth <> builder -> enum <> builder ->
  is_Some (h !! enum) -> is_Some (h !! auth) ->
  lookup_next h builder = None ->
  let '(h1, r1) := set_prev h enum auth in
  let '(h2, r2) := set_prev h1 r1 builder in
  r1 = auth /\ r2 = builder /\
  lookup_next h1 enum = Some auth /\
  lookup_next h2 enum = Some auth /\
  lookup_next h2 auth = Some builder /\
  lookup_next h2 builder = None.
Proof.
  intros Hea Hab Heb He Ha Hb.
  destruct (set_prev h enum auth) as [h1 r1] eqn:E1.
  assert (Eh1 : h1 = fst (set_prev h enum auth)) by (by rewrite E1).
  assert (Er1 : r1 = auth) by (by inversion E1).
  subst r1.
  destruct (set_prev h1 auth builder) as [h2 r2] eqn:E2.
  assert (Eh2 : h2 = fst (set_prev h1 auth builder)) by (by rewrite E2).
  assert (Er2 : r2 = builder) by (by inversion E2).
  subst r2 h2 h1.
  repeat split.
  - by apply lookup_next_set_prev_eq.
  - rewrite lookup_next_set_prev_ne by congruence.
    by apply lookup_next_set_prev_eq.
  - apply lookup_next_set_prev_eq. by apply set_prev_dom.
  - rewrite !lookup_next_set_prev_ne by congruence. exact Hb.
Qed.

Lemma set_prev_fluent_chain_witness :
  let '(h1, r1) := set_prev fresh_heap loc_msg loc_auth in
  let '(h2, r2) := set_prev h1 r1 loc_imap in
  r1 = loc_auth /\ r2 = loc_imap /\
  lookup_next h1 loc_msg = Some loc_auth /\
  lookup_next h2 loc_msg = Some loc_auth /\
  lookup_next h2 loc_auth = Some loc_imap /\
  lookup_next h2 loc_imap = None.
Proof.
  apply (set_prev_fluent_chain fresh_heap loc_msg loc_auth loc_imap);
    try (unfold loc_msg, loc_auth, loc_imap; lia);
    try (eexists; reflexivity); reflexivity.
Defined.


(* ------------------------------------------------------------------ *)
(** ** Inverting monadic runs *)

Lemma bind_Ok_inv {A B} (m : M A) (f : A -> M B) b t :
  bind m f = (Ok b, t) ->
  exists a t1 t2, m = (Ok a, t1) /\ f a = (Ok b, t2) /\ t = t1 ++ t2.
Proof.
  unfold bind. destruct m as [[a|e] t1]; [|discriminate].
  destruct (f a) as [r t2] eqn:E. intros [= -> <-]. by exists a, t1, t2.
Qed.

Ltac peel_ok :=
  repeat match goal with
  | H : bind _ _ = (Ok _, _) |- _ =>
      apply bind_Ok_inv in H as (? & ? & ? & ? & H & ?); cbv beta zeta in H
  end.

Lemma execute_source_result env k req r t :
  source_kind k = true -> execute env k req = (Ok r, t) ->
  truthy r = true \/ r = PNone.
Proof.
  destruct k; simpl; try discriminate; intros _ H.
  - unfold imap_execute in H. peel_ok. inversion H. by left.
  - unfold auth_execute in H. destruct req; try discriminate.
    peel_ok. inversion H. by left.
  - unfold get_message_execute in H. peel_ok. inversion H. by right.
Qed.

Lemma handle_source_falsy n env h s req v t :
  source_only h -> handle n env h s req = (Ok v, t) -> truthy v = false ->
  v = PNone.
Proof.
  intros Hsrc. revert s req v t.
  induction n as [|n IH]; intros s req v t H Hv; simpl in H; [discriminate|].
  destruct (h !! s) as [o|] eqn:Ho; [|discriminate].
  pose proof (Hsrc s o Ho) as Hk.
  destruct (next_handler o) as [p|].
  - peel_ok. destruct (truthy _); peel_ok.
    + destruct (execute env (obj_kind o) _) as [r t'] eqn:He. inversion H; subst.
      destruct (execute_source_result _ _ _ _ _ Hk He) as [Ht|]; [congruence|done].
    + by inversion H.
  - simpl in H. destruct (execute env (obj_kind o) req) as [r t'] eqn:He.
    inversion H; subst.
    destruct (execute_source_result _ _ _ _ _ Hk He) as [Ht|]; [congruence|done].
Qed.

(* ------------------------------------------------------------------ *)
(** ** Short-circuit of the chain *)

(** C1 (as amended): when the predecessor's [handle] yields a falsy
    result, the stage's [execute] is not invoked (the trace is exactly the
    predecessor's) and [handle] returns [None]; when every handler is an
    instance of the module's classes, that falsy result was [None]. *)
Theorem handle_short_circuit n env h s o p req v t :
  h !! s = Some o -> next_handler o = Some p ->
  handle n env h p req = (Ok v, t) -> truthy v = false ->
  handle (S n) env h s req = (Ok PNone, t) /\
  (source_only h -> v = PNone).
Proof.
  intros Ho Hp Hprev Hv. split.
  - simpl. rewrite Ho, Hp, Hprev, bind_ok, Hv. simpl. by rewrite app_nil_r.
  - intros Hsrc. by eapply handle_source_falsy.
Qed.

Lemma handle_short_circuit_witness :
  handle 2 quiet_env enum_first_heap 2 session_pair
  = (Ok PNone, [EvExecute 1; EvSelect "INBOX"; EvSearch None "ALL"; EvClose]).
Proof.
  apply (proj1 (handle_short_circuit 1 quiet_env enum_first_heap 2
    (mkObj ImapHandler (Some (Some 1%nat))) 1 session_pair PNone
    [EvExecute 1; EvSelect "INBOX"; EvSearch None "ALL"; EvClose]
    eq_refl eq_refl eq_refl eq_refl)).
Defined.

(** C1 fails as stated: a predecessor returning the falsy [0] makes
    [handle] return [None], not [0]. *)
Lemma handle_falsy_becomes_none :
  handle 1 quiet_env falsy_heap 1 PNone = (Ok (PInt 0), [EvExecute 1]) /\
  handle 2 quiet_env falsy_heap 2 PNone = (Ok PNone, [EvExecute 1]) /\
  PNone <> PInt 0.
Proof. split; [reflexivity|]. split; [reflexivity|discriminate]. Qed.


(* ------------------------------------------------------------------ *)
(** ** Building the credential record *)

(** C3: a dict holding the six keys with string names, password and
    hosts and integer ports yields an [EmailData] whose fields are those
    values, without any other effect. *)
Theorem imap_execute_well_formed env (d : list (string * pyval))
    (u pw ih sh : string) (ip sp : Z) :
  dict_lookup d "user_name" = Some (PStr u) ->
  dict_lookup d "password" = Some (PStr pw) ->
  dict_lookup d "imap_ssl_port" = Some (PInt ip) ->
  dict_lookup d "imap_ssl_host" = Some (PStr ih) ->
  dict_lookup d "smtp_ssl_port" = Some (PInt sp) ->
  dict_lookup d "smtp_ssl_host" = Some (PStr sh) ->
  imap_execute env (PDict d) = (Ok (PEmail (mkEmailData u pw ip ih sp sh)), []).
Proof.
  intros Hu Hp Hip Hih Hsp Hsh.
  unfold imap_execute, getitem. rewrite Hu, Hp, Hip, Hih, Hsp, Hsh.
  reflexivity.
Qed.

Lemma imap_execute_well_formed_witness :
  imap_execute quiet_env main_request
  = (Ok (PEmail (mkEmailData "roboket.test@gmail.com" "DDFlkjlkj.78908$%"
                   993 "imap.gmail.com" 465 "smtp.gmail.com")), []).
Proof. apply imap_execute_well_formed; reflexivity. Defined.








(* ------------------------------------------------------------------ *)
(** ** Authentication order *)

(** C5: the IMAP connection and login are attempted before the SMTP
    connection and login; when the IMAP connection or login raises, the
    run fails and no SMTP operation is attempted. *)
Theorem auth_execute_imap_first env (r : EmailData) :
  let '(result, tr) := auth_execute env (PEmail r) in
  tr `prefix_of` [EvImapConnect (imap_ssl_host r) (imap_ssl_port r);
                  EvImapLogin (user_name r) (password r);
                  EvSmtpConnect (smtp_ssl_host r) (smtp_ssl_port r);
                  EvSmtpLogin (user_name r) (password r)] /\
  ((exists e, env_imap_connect env (imap_ssl_host r) (imap_ssl_port r) = Err e) \/
   (exists e, env_imap_login env (user_name r) (password r) = Err e) ->
   (exists e, result = Err e) /\ Forall (fun ev => is_smtp_event ev = false) tr).
Proof.
  unfold auth_execute, tell, lift.
  destruct (env_imap_connect env _ _) as [[]|e1] eqn:E1;
    [|simpl; split; [by exists [EvImapLogin (user_name r) (password r);
                                EvSmtpConnect (smtp_ssl_host r) (smtp_ssl_port r);
                                EvSmtpLogin (user_name r) (password r)]|];
      intros _; split; [by eexists|repeat constructor]].
  destruct (env_imap_login env _ _) as [[]|e2] eqn:E2;
    [|simpl; split; [by exists [EvSmtpConnect (smtp_ssl_host r) (smtp_ssl_port r);
                                EvSmtpLogin (user_name r) (password r)]|];
      intros _; split; [by eexists|repeat constructor]].
  destruct (env_smtp_connect env _ _) as [[]|e3];
    [destruct (env_smtp_login env _ _) as [[]|e4]|]; simpl;
    (split; [first [by exists [] | by eexists]
            | intros [[e He]|[e He]]; congruence]).
Qed.

Lemma auth_execute_imap_first_witness :
  let r := mkEmailData "u" "wrong" 993 "imap.example.org" 465 "smtp.example.org" in
  auth_execute bad_login_env (PEmail r)
  = (Err (ServerError "IMAP4.error"),
     [EvImapConnect "imap.example.org" 993; EvImapLogin "u" "wrong"]) /\
  Forall (fun ev => is_smtp_event ev = false)
    [EvImapConnect "imap.example.org" 993; EvImapLogin "u" "wrong"].
Proof.
  split; [reflexivity|].
  pose proof (auth_execute_imap_first bad_login_env
    (mkEmailData "u" "wrong" 993 "imap.example.org" 465 "smtp.example.org")) as H.
  simpl in H. destruct H as [_ H].
  apply H. right. by eexists.
Defined.


(* ------------------------------------------------------------------ *)
(** ** Enumerating messages *)

Lemma print_header_run (items : list (string * string)) :
  print_header items = (Ok tt, map EvPrint items).
Proof.
  induction items as [|h hs IH]; [reflexivity|].
  simpl. rewrite IH. reflexivity.
Qed.

Lemma fetched_app t1 t2 : fetched (t1 ++ t2) = fetched t1 ++ fetched t2.
Proof. unfold fetched. apply omap_app. Qed.

Lemma printed_app t1 t2 : printed (t1 ++ t2) = printed t1 ++ printed t2.
Proof. unfold printed. apply omap_app. Qed.

Lemma close_count_app t1 t2 :
  close_count (t1 ++ t2) = (close_count t1 + close_count t2)%nat.
Proof. induction t1 as [|[] t1 IH]; simpl; rewrite ?IH; reflexivity. Qed.

Lemma prints_no_fetch_no_close (hs : list (string * string)) :
  fetched (map EvPrint hs) = [] /\ close_count (map EvPrint hs) = 0%nat.
Proof. induction hs as [|h hs [IH1 IH2]]; by simpl. Qed.

(** Every iteration fetches its number, then only prints. *)
Lemma process_num_shape env j :
  exists hs, snd (process_num env (PConn ImapConn) j)
             = EvFetch j "(RFC822)" :: map EvPrint hs.
Proof.
  unfold process_num, fetch_message, decode_message, lift, tell. simpl.
  destruct (env_fetch env j "(RFC822)") as [d|e]; simpl; [|by exists []].
  destruct (fetch_raw d) as [raw|e]; simpl; [|by exists []].
  destruct (env_decode_utf8 env raw) as [m|e]; simpl; [|by exists []].
  rewrite print_header_run. simpl. by exists (env_header_items env m).
Qed.

Lemma process_num_ok env j d raw m :
  env_fetch env j "(RFC822)" = Ok d -> fetch_raw d = Ok raw ->
  env_decode_utf8 env raw = Ok m ->
  process_num env (PConn ImapConn) j
  = (Ok tt, EvFetch j "(RFC822)" :: map EvPrint (env_header_items env m)).
Proof.
  intros Hf Hr Hd. unfold process_num, fetch_message, decode_message, lift, tell.
  simpl. rewrite Hf. simpl. rewrite Hr. simpl. rewrite Hd. simpl.
  rewrite print_header_run. reflexivity.
Qed.

Lemma process_num_fail env j e :
  (env_fetch env j "(RFC822)" = Err e \/
   exists d, env_fetch env j "(RFC822)" = Ok d /\ fst (decode_message env d) = Err e) ->
  process_num env (PConn ImapConn) j = (Err e, [EvFetch j "(RFC822)"]).
Proof.
  intros [Hf|(d & Hf & Hd)];
    unfold process_num, fetch_message, lift, tell; simpl; rewrite Hf; [reflexivity|].
  simpl. destruct (decode_message env d) as [[m|e'] t] eqn:E; simpl in Hd; [discriminate|].
  inversion Hd; subst e'.
  unfold decode_message, lift in E. destruct (fetch_raw d); simpl in E.
  - destruct (env_decode_utf8 env a); inversion E; subst; reflexivity.
  - inversion E; subst; reflexivity.
Qed.

(** Iterations that succeed leave the rest of the loop unchanged and
    contribute one fetch each and no [close()]. *)
Lemma for_each_num_ok_prefix env (pre rest : list string) :
  (forall j, In j pre -> fst (process_num env (PConn ImapConn) j) = Ok tt) ->
  exists tp, fetched tp = pre /\ close_count tp = 0%nat /\
    for_each_num env (PConn ImapConn) (pre ++ rest)
    = (fst (for_each_num env (PConn ImapConn) rest),
       tp ++ snd (for_each_num env (PConn ImapConn) rest)).
Proof.
  induction pre as [|j pre IH]; intros Hok.
  - exists []. repeat split. simpl. by destruct (for_each_num _ _ _).
  - destruct IH as (tp & Hf & Hc & Heq); [intros; apply Hok; by right|].
    destruct (process_num_shape env j) as [hs Hs].
    pose proof (Hok j (or_introl eq_refl)) as Hj.
    exists (EvFetch j "(RFC822)" :: map EvPrint hs ++ tp).
    destruct (prints_no_fetch_no_close hs) as [Hf' Hc'].
    split; [simpl; rewrite fetched_app, Hf', Hf; reflexivity|].
    split; [simpl; rewrite close_count_app, Hc', Hc; reflexivity|].
    simpl. destruct (process_num env (PConn ImapConn) j) as [[[]|e] t] eqn:E;
      simpl in Hj, Hs; [|discriminate]. subst t.
    rewrite Heq. simpl. by rewrite <- app_assoc.
Qed.

(** A run of [GetMessageHandler.execute] on a pair whose first element
    is the IMAP session, once INBOX is selected and searched. *)
Lemma get_message_run env x data nums :
  env_select env "INBOX" = Ok tt ->
  env_search env None "ALL" = Ok data ->
  first_split data = Ok nums ->
  get_message_execute env (PTuple [PConn ImapConn; x])
  = let '(r, t) := for_each_num env (PConn ImapConn) nums in
    match r with
    | Ok _ => (match env_close env with Ok _ => Ok PNone | Err e => Err e end,
               [EvSelect "INBOX"; EvSearch None "ALL"] ++ t ++ [EvClose])
    | Err e => (Err e, [EvSelect "INBOX"; EvSearch None "ALL"] ++ t)
    end.
Proof.
  intros Hsel Hsearch Hsplit.
  unfold get_message_execute, select_mail_box, search_mail_box,
    close_imap_server, lift, tell. simpl.
  rewrite Hsel. simpl. rewrite Hsearch. simpl. rewrite Hsplit. simpl.
  destruct (for_each_num env (PConn ImapConn) nums) as [[[]|e] t]; simpl;
    [destruct (env_close env)|]; simpl; by rewrite ?app_nil_r.
Qed.


(** C6: when INBOX is selected and the ALL search yields no message
    number, the run fetches nothing, prints nothing and closes the
    session exactly once; it returns [None] whenever [close()] returns. *)
Theorem get_message_empty env x data :
  env_select env "INBOX" = Ok tt ->
  env_search env None "ALL" = Ok data ->
  first_split data = Ok [] ->
  let '(r, t) := get_message_execute env (PTuple [PConn ImapConn; x]) in
  t = [EvSelect "INBOX"; EvSearch None "ALL"; EvClose] /\
  fetched t = [] /\ printed t = [] /\ close_count t = 1%nat /\
  (env_close env = Ok tt -> r = Ok PNone).
Proof.
  intros Hsel Hsearch Hsplit.
  rewrite (get_message_run env x data [] Hsel Hsearch Hsplit). simpl.
  repeat split. intros ->. reflexivity.
Qed.

Lemma get_message_empty_witness :
  get_message_execute quiet_env session_pair
  = (Ok PNone, [EvSelect "INBOX"; EvSearch None "ALL"; EvClose]).
Proof.
  pose proof (get_message_empty quiet_env (PConn SmtpConn) [Some ""]
    eq_refl eq_refl eq_refl) as H.
  unfold session_pair.
  destruct (get_message_execute quiet_env (PTuple [PConn ImapConn; PConn SmtpConn]))
    as [r t].
  destruct H as (-> & _ & _ & _ & Hr). by rewrite (Hr eq_refl).
Defined.

(** C7: two messages, found in that order by the search, whose headers
    are [From: a@x.com, Subject: hi] and [From: b@x.com, Subject: yo]:
    the run fetches them in order and prints exactly the four header
    items, message by message and field by field. *)
Theorem get_message_two_messages env x data i1 i2 d1 d2 raw1 raw2 m1 m2 :
  env_select env "INBOX" = Ok tt ->
  env_search env None "ALL" = Ok data ->
  first_split data = Ok [i1; i2] ->
  env_fetch env i1 "(RFC822)" = Ok d1 -> fetch_raw d1 = Ok raw1 ->
  env_decode_utf8 env raw1 = Ok m1 ->
  env_header_items env m1 = [("From", "a@x.com"); ("Subject", "hi")] ->
  env_fetch env i2 "(RFC822)" = Ok d2 -> fetch_raw d2 = Ok raw2 ->
  env_decode_utf8 env raw2 = Ok m2 ->
  env_header_items env m2 = [("From", "b@x.com"); ("Subject", "yo")] ->
  let '(r, t) := get_message_execute env (PTuple [PConn ImapConn; x]) in
  printed t = [("From", "a@x.com"); ("Subject", "hi");
               ("From", "b@x.com"); ("Subject", "yo")] /\
  t = [EvSelect "INBOX"; EvSearch None "ALL";
       EvFetch i1 "(RFC822)";
       EvPrint ("From", "a@x.com"); EvPrint ("Subject", "hi");
       EvFetch i2 "(RFC822)";
       EvPrint ("From", "b@x.com"); EvPrint ("Subject", "yo");
       EvClose] /\
  (env_close env = Ok tt -> r = Ok PNone).
Proof.
  intros Hsel Hsearch Hsplit Hf1 Hr1 Hd1 Hh1 Hf2 Hr2 Hd2 Hh2.
  rewrite (get_message_run env x data [i1; i2] Hsel Hsearch Hsplit).
  simpl. rewrite (process_num_ok env i1 d1 raw1 m1 Hf1 Hr1 Hd1), Hh1. simpl.
  rewrite (process_num_ok env i2 d2 raw2 m2 Hf2 Hr2 Hd2), Hh2. simpl.
  repeat split. intros ->. reflexivity.
Qed.

Lemma get_message_two_messages_witness :
  get_message_execute two_msg_env session_pair
  = (Ok PNone,
     [EvSelect "INBOX"; EvSearch None "ALL";
      EvFetch "1" "(RFC822)";
      EvPrint ("From", "a@x.com"); EvPrint ("Subject", "hi");
      EvFetch "2" "(RFC822)";
      EvPrint ("From", "b@x.com"); EvPrint ("Subject", "yo");
      EvClose]).
Proof.
  pose proof (get_message_two_messages two_msg_env (PConn SmtpConn) [Some "1 2"]
    "1" "2" _ _ "1" "2" "1" "2" eq_refl eq_refl eq_refl eq_refl eq_refl eq_refl
    eq_refl eq_refl eq_refl eq_refl eq_refl) as H.
  unfold session_pair.
  destruct (get_message_execute two_msg_env (PTuple [PConn ImapConn; PConn SmtpConn]))
    as [r t].
  destruct H as (_ & -> & Hr). by rewrite (Hr eq_refl).
Defined.

(** C9: when fetching or decoding a message raises, the enumeration
    stops there: the error is the result, no later number is fetched,
    and [close()] is never called. *)
Theorem get_message_abort env x data pre i post e :
  env_select env "INBOX" = Ok tt ->
  env_search env None "ALL" = Ok data ->
  first_split data = Ok (pre ++ i :: post) ->
  (forall j, In j pre -> fst (process_num env (PConn ImapConn) j) = Ok tt) ->
  (env_fetch env i "(RFC822)" = Err e \/
   exists d, env_fetch env i "(RFC822)" = Ok d /\ fst (decode_message env d) = Err e) ->
  let '(r, t) := get_message_execute env (PTuple [PConn ImapConn; x]) in
  r = Err e /\ fetched t = pre ++ [i] /\ close_count t = 0%nat.
Proof.
  intros Hsel Hsearch Hsplit Hok Hfail.
  rewrite (get_message_run env x data _ Hsel Hsearch Hsplit).
  destruct (for_each_num_ok_prefix env pre (i :: post) Hok) as (tp & Hf & Hc & ->).
  simpl. rewrite (process_num_fail env i e Hfail). simpl.
  repeat split.
  - rewrite fetched_app, Hf. reflexivity.
  - rewrite close_count_app, Hc. reflexivity.
Qed.

Lemma get_message_abort_witness :
  get_message_execute broken_fetch_env session_pair
  = (Err (ServerError "IMAP4.abort"),
     [EvSelect "INBOX"; EvSearch None "ALL";
      EvFetch "1" "(RFC822)"; EvPrint ("From", "a@x.com");
      EvFetch "2" "(RFC822)"]) /\
  (let '(r, t) := get_message_execute broken_fetch_env session_pair in
   r = Err (ServerError "IMAP4.abort") /\ fetched t = ["1"; "2"] /\
   close_count t = 0%nat).
Proof.
  split; [reflexivity|].
  apply (get_message_abort broken_fetch_env (PConn SmtpConn) [Some "1 2 3"]
           ["1"] "2" ["3"] (ServerError "IMAP4.abort") eq_refl eq_refl eq_refl).
  - intros j [<-|[]]. reflexivity.
  - left. reflexivity.
Defined.


(* ------------------------------------------------------------------ *)
(** ** Failure in the canonical chain *)

Lemma handle_step n env h s req :
  handle (S n) env h s req =
    match h !! s with
    | None => raise AttributeError
    | Some o =>
        match next_handler o with
        | Some prev =>
            response <-- handle n env h prev req ;;
            if truthy response
            then tell (EvExecute s) ;;; execute env (obj_kind o) response
            else ret PNone
        | None => tell (EvExecute s) ;;; execute env (obj_kind o) req
        end
    end.
Proof. reflexivity. Qed.

Lemma main_heap_msg :
  main_heap !! loc_msg = Some (mkObj GetMessageHandler (Some (Some loc_auth))).
Proof. reflexivity. Qed.

Lemma main_heap_auth :
  main_heap !! loc_auth = Some (mkObj AuthenticationHandler (Some (Some loc_imap))).
Proof. reflexivity. Qed.

Lemma main_heap_imap : main_heap !! loc_imap = Some (mkObj ImapHandler None).
Proof. reflexivity. Qed.

Lemma imap_execute_ok env req v t :
  imap_execute env req = (Ok v, t) -> t = [] /\ exists r, v = PEmail r.
Proof.
  intros H. unfold imap_execute in H. peel_ok. unfold lift in *.
  repeat match goal with Hx : (_, []) = (Ok _, _) |- _ => inversion Hx; clear Hx end.
  unfold ret in H. inversion H. subst. split; [reflexivity|by eexists].
Qed.

Lemma auth_execute_no_execute env v r t l :
  auth_execute env v = (r, t) -> EvExecute l ∉ t.
Proof.
  unfold auth_execute, tell, lift.
  destruct v; try (intros H; inversion H; subst; set_solver).
  destruct (env_imap_connect env _ _) as [[]|];
    [destruct (env_imap_login env _ _) as [[]|];
      [destruct (env_smtp_connect env _ _) as [[]|];
        [destruct (env_smtp_login env _ _) as [[]|]|]|]|];
    simpl; intros H; inversion H; subst; set_solver.
Qed.

(** C8: in the chain of the [__main__] block, when the authenticator's
    [execute] raises (for instance a rejected login), the enumerator's
    [execute] is never entered and [client_code] raises that same
    exception. *)
Theorem canonical_auth_failure env req n v t1 e t2 :
  imap_execute env req = (Ok v, t1) ->
  auth_execute env v = (Err e, t2) ->
  client_code (3 + n) env main_heap loc_msg req
  = (Err e, EvExecute loc_imap :: t1 ++ EvExecute loc_auth :: t2) /\
  EvExecute loc_msg ∉ EvExecute loc_imap :: t1 ++ EvExecute loc_auth :: t2.
Proof.
  intros Himap Hauth.
  destruct (imap_execute_ok _ _ _ _ Himap) as [-> [r ->]].
  unfold client_code. replace (3 + n)%nat with (S (S (S n))) by lia.
  rewrite handle_step, main_heap_msg. cbn [next_handler obj_next obj_kind].
  rewrite handle_step, main_heap_auth. cbn [next_handler obj_next obj_kind].
  rewrite handle_step, main_heap_imap. cbn [next_handler obj_next obj_kind].
  unfold class_next_handler, tell. cbn [execute].
  rewrite bind_ok, Himap. cbn [fst snd app truthy].
  rewrite bind_ok. cbn [fst snd app truthy].
  rewrite bind_ok, Hauth. cbn [fst snd app].
  split; [reflexivity|].
  pose proof (auth_execute_no_execute env (PEmail r) (Err e) t2 loc_msg Hauth).
  unfold loc_msg, loc_auth, loc_imap. set_solver.
Qed.

Lemma canonical_auth_failure_witness :
  client_code 3 bad_login_env main_heap loc_msg main_request
  = (Err (ServerError "IMAP4.error"),
     [EvExecute loc_imap; EvExecute loc_auth;
      EvImapConnect "imap.gmail.com" 993;
      EvImapLogin "roboket.test@gmail.com" "DDFlkjlkj.78908$%"]).
Proof.
  apply (proj1 (canonical_auth_failure bad_login_env main_request 0
    (PEmail (mkEmailData "roboket.test@gmail.com" "DDFlkjlkj.78908$%"
               993 "imap.gmail.com" 465 "smtp.gmail.com")) []
    (ServerError "IMAP4.error")
    [EvImapConnect "imap.gmail.com" 993;
     EvImapLogin "roboket.test@gmail.com" "DDFlkjlkj.78908$%"]
    eq_refl eq_refl)).
Defined.


(* ================================================================== *)
(** * Further properties of the module *)

(** ** Runs of the canonical chain *)

(** The [__main__] chain composes its three stages: the builder runs on
    the request, the authenticator on the builder's record, the
    enumerator on the authenticator's session pair, and [client_code]
    returns the enumerator's result. *)
Theorem canonical_chain_run env req n v t1 w t2 r t3 :
  imap_execute env req = (Ok v, t1) ->
  auth_execute env v = (Ok w, t2) ->
  get_message_execute env w = (r, t3) ->
  client_code (3 + n) env main_heap loc_msg req
  = (r, EvExecute loc_imap :: t1 ++ EvExecute loc_auth :: t2 ++
        EvExecute loc_msg :: t3).
Proof.
  intros Himap Hauth Hmsg.
  destruct (imap_execute_ok _ _ _ _ Himap) as [-> [e ->]].
  assert (Hw : truthy w = true).
  { unfold auth_execute in Hauth. peel_ok. unfold ret in Hauth.
    by inversion Hauth. }
  unfold client_code. replace (3 + n)%nat with (S (S (S n))) by lia.
  rewrite handle_step, main_heap_msg. cbn [next_handler obj_next obj_kind].
  rewrite handle_step, main_heap_auth. cbn [next_handler obj_next obj_kind].
  rewrite handle_step, main_heap_imap. cbn [next_handler obj_next obj_kind].
  unfold class_next_handler, tell. cbn [execute].
  rewrite bind_ok, Himap. cbn [fst snd app truthy].
  rewrite bind_ok. cbn [fst snd app truthy].
  rewrite bind_ok, Hauth. cbn [fst snd app].
  rewrite bind_ok. cbv beta. rewrite Hw.
  rewrite bind_ok, Hmsg. cbn [fst snd app].
  reflexivity.
Qed.

Lemma canonical_chain_run_witness :
  client_code 3 two_msg_env main_heap loc_msg main_request
  = (Ok PNone,
     [EvExecute loc_imap; EvExecute loc_auth;
      EvImapConnect "imap.gmail.com" 993;
      EvImapLogin "roboket.test@gmail.com" "DDFlkjlkj.78908$%";
      EvSmtpConnect "smtp.gmail.com" 465;
      EvSmtpLogin "roboket.test@gmail.com" "DDFlkjlkj.78908$%";
      EvExecute loc_msg; EvSelect "INBOX"; EvSearch None "ALL";
      EvFetch "1" "(RFC822)";
      EvPrint ("From", "a@x.com"); EvPrint ("Subject", "hi");
      EvFetch "2" "(RFC822)";
      EvPrint ("From", "b@x.com"); EvPrint ("Subject", "yo");
      EvClose]).
Proof.
  apply (canonical_chain_run two_msg_env main_request 0
    (PEmail (mkEmailData "roboket.test@gmail.com" "DDFlkjlkj.78908$%"
               993 "imap.gmail.com" 465 "smtp.gmail.com")) []
    session_pair
    [EvImapConnect "imap.gmail.com" 993;
     EvImapLogin "roboket.test@gmail.com" "DDFlkjlkj.78908$%";
     EvSmtpConnect "smtp.gmail.com" 465;
     EvSmtpLogin "roboket.test@gmail.com" "DDFlkjlkj.78908$%"]);
    reflexivity.
Defined.

(** When the builder raises on the request (a missing key or a value
    pydantic rejects), the [__main__] chain raises that exception having
    entered only the builder: no connection is opened and the later
    stages never run. *)
Theorem canonical_builder_failure env req n e t :
  imap_execute env req = (Err e, t) ->
  client_code (3 + n) env main_heap loc_msg req
  = (Err e, [EvExecute loc_imap]).
Proof.
  intros Himap.
  assert (Ht : t = []).
  { unfold imap_execute, lift in Himap.
    repeat match type of Himap with
    | context [getitem ?r ?k] => destruct (getitem r k); simpl in Himap
    end;
    try (inversion Himap; reflexivity).
    destruct (EmailData_validate _ _ _ _ _ _ _); inversion Himap; reflexivity. }
  subst t.
  unfold client_code. replace (3 + n)%nat with (S (S (S n))) by lia.
  rewrite handle_step, main_heap_msg. cbn [next_handler obj_next obj_kind].
  rewrite handle_step, main_heap_auth. cbn [next_handler obj_next obj_kind].
  rewrite handle_step, main_heap_imap. cbn [next_handler obj_next obj_kind].
  unfold class_next_handler, tell. cbn [execute].
  rewrite bind_ok, Himap. reflexivity.
Qed.

Lemma canonical_builder_failure_witness :
  client_code 3 quiet_env main_heap loc_msg (PDict [("user_name", PStr "u")])
  = (Err (KeyError "password"), [EvExecute loc_imap]).
Proof. apply (canonical_builder_failure quiet_env _ 0 _ []). reflexivity. Defined.

(** ** Cycles and the recursion limit *)

(** A handler linked before itself ([h.set_prev(h)]) makes [handle]
    recurse until the interpreter's limit: it raises [RecursionError]
    and no stage is executed. *)
Theorem handle_self_cycle n env (h : heap) s req :
  lookup_next h s = Some s ->
  handle n env h s req = (Err RecursionError, []).
Proof.
  intros Hs. unfold lookup_next in Hs.
  destruct (h !! s) as [o|] eqn:Ho; [|discriminate].
  induction n as [|n IH]; [reflexivity|].
  rewrite handle_step, Ho, Hs, IH. reflexivity.
Qed.

Lemma handle_self_cycle_witness :
  handle 1000 quiet_env self_linked_heap loc_imap main_request
  = (Err RecursionError, []).
Proof. apply handle_self_cycle. reflexivity. Defined.

(** ** Order of the stages in any chain *)

Lemma executes_app t1 t2 : executes (t1 ++ t2) = executes t1 ++ executes t2.
Proof. unfold executes. apply omap_app. Qed.

(** Computations that never enter a stage. *)
Definition no_exec {A} (m : M A) : Prop := executes (snd m) = [].

Lemma no_exec_bind {A B} (m : M A) (f : A -> M B) :
  no_exec m -> (forall a, no_exec (f a)) -> no_exec (bind m f).
Proof.
  unfold no_exec. intros Hm Hf. destruct m as [[a|e] t].
  - rewrite bind_ok. simpl in *. by rewrite executes_app, Hm, Hf.
  - rewrite bind_err. simpl in *. done.
Qed.

Ltac solve_no_exec :=
  repeat (apply no_exec_bind; [|intros]);
  try match goal with |- no_exec (match ?x with _ => _ end) => destruct x end;
  try reflexivity.

Lemma print_header_no_exec items : no_exec (print_header items).
Proof. unfold no_exec. rewrite print_header_run. by induction items. Qed.

Lemma for_each_num_no_exec env srv nums : no_exec (for_each_num env srv nums).
Proof.
  induction nums as [|j nums IH]; simpl; [reflexivity|].
  apply no_exec_bind; [|intros; exact IH].
  unfold process_num, fetch_message, decode_message.
  repeat (apply no_exec_bind; [|intros]); try reflexivity.
  apply print_header_no_exec.
Qed.

Lemma source_execute_no_exec env k req :
  source_kind k = true -> no_exec (execute env k req).
Proof.
  destruct k; simpl; try discriminate; intros _.
  - unfold imap_execute. solve_no_exec.
  - unfold auth_execute. destruct req; solve_no_exec.
  - unfold get_message_execute, select_mail_box, search_mail_box,
      close_imap_server.
    repeat (apply no_exec_bind; [|intros]); try reflexivity.
    apply for_each_num_no_exec.
Qed.

(** In a chain of the module's handlers, a run of [handle] enters the
    stages' [execute] along the chain from its head to the entry stage,
    each at most once and never out of order (a prefix of the chain);
    when the run returns a truthy result, every stage of the chain has
    been executed. *)
Theorem handle_executes_chain_order n env h s req r t :
  source_only h ->
  handle n env h s req = (r, t) ->
  executes t `prefix_of` chain_path n h s /\
  (forall v, r = Ok v -> truthy v = true -> executes t = chain_path n h s).
Proof.
  intros Hsrc. revert s req r t.
  induction n as [|n IH]; intros s req r t H.
  - simpl in H. inversion H; subst. split; [done|]. intros v [=].
  - rewrite handle_step in H. simpl chain_path.
    destruct (h !! s) as [o|] eqn:Ho;
      [|inversion H; subst; split; [done|intros v [=]]].
    pose proof (Hsrc s o Ho) as Hk. simpl in Hk.
    destruct (next_handler o) as [p|].
    + destruct (handle n env h p req) as [[a|e] tp] eqn:Ep.
      * destruct (IH p req (Ok a) tp Ep) as [Hpre Hfull].
        rewrite bind_ok in H. cbv beta in H.
        destruct (truthy a) eqn:Ha.
        -- pose proof (source_execute_no_exec env (obj_kind o) a Hk) as Hn.
           unfold no_exec in Hn.
           destruct (execute env (obj_kind o) a) as [re te] eqn:Ee.
           unfold tell in H. rewrite bind_ok in H. simpl in H.
           inversion H; subst.
           assert (Hx : executes (tp ++ EvExecute s :: te) = chain_path n h p ++ [s]).
           { rewrite executes_app, (Hfull a eq_refl Ha). simpl in Hn |- *.
             by rewrite Hn. }
           rewrite Hx. split; [done|]. intros; done.
        -- unfold ret in H. simpl in H. inversion H; subst.
           rewrite app_nil_r. split; [by apply prefix_app_r|].
           intros v [= <-]. done.
      * rewrite bind_err in H. inversion H; subst.
        destruct (IH p req (Err e) t Ep) as [Hpre _].
        split; [by apply prefix_app_r|]. intros v [=].
    + pose proof (source_execute_no_exec env (obj_kind o) req Hk) as Hn.
      unfold no_exec in Hn.
      destruct (execute env (obj_kind o) req) as [re te] eqn:Ee.
      unfold tell in H. rewrite bind_ok in H. simpl in H.
      inversion H; subst. simpl in Hn |- *. rewrite Hn.
      split; [done|]. intros; done.
Qed.

Lemma handle_executes_chain_order_witness :
  executes (snd (handle 3 bad_login_env main_heap loc_msg main_request))
    `prefix_of` chain_path 3 main_heap loc_msg /\
  chain_path 3 main_heap loc_msg = [loc_imap; loc_auth; loc_msg].
Proof.
  split; [|reflexivity].
  destruct (handle 3 bad_login_env main_heap loc_msg main_request) as [r t] eqn:E.
  refine (proj1 (handle_executes_chain_order 3 bad_login_env main_heap
    loc_msg main_request r t _ E)).
  apply map_Forall_lookup_2. intros i o Hi.
  unfold main_heap, fresh_heap, set_prev in Hi. simpl in Hi.
  repeat (rewrite lookup_insert in Hi || rewrite lookup_alter in Hi).
  repeat case_decide; simplify_eq; try discriminate; subst; simpl in *;
    simplify_map_eq; reflexivity.
Defined.


(** ** The builder's input *)

(** [ImapHandler.execute] reads only the six required keys: two dicts
    that agree on them give the same outcome, whatever other keys they
    hold. *)
Theorem imap_execute_only_required_keys env (d1 d2 : list (string * pyval)) :
  (forall k, In k required_keys -> dict_lookup d1 k = dict_lookup d2 k) ->
  imap_execute env (PDict d1) = imap_execute env (PDict d2).
Proof.
  intros Hk. unfold imap_execute, getitem.
  rewrite (Hk "user_name"), (Hk "password"), (Hk "imap_ssl_port"),
    (Hk "imap_ssl_host"), (Hk "smtp_ssl_port"), (Hk "smtp_ssl_host");
    [reflexivity|simpl; tauto..].
Qed.

Lemma imap_execute_only_required_keys_witness :
  imap_execute quiet_env extra_key_request = imap_execute quiet_env main_request.
Proof.
  apply imap_execute_only_required_keys.
  intros k Hk. simpl in Hk.
  destruct Hk as [<-|[<-|[<-|[<-|[<-|[<-|[]]]]]]]; reflexivity.
Defined.

(** ** Failures before the enumeration *)

(** When [select] or [search] raises, or the search response has no
    data line ([IndexError]) or a [None] one ([AttributeError]), the
    enumerator raises at once: nothing is fetched and the session is
    not closed. *)
Theorem get_message_pre_enumeration_failures env x :
  (forall e, env_select env "INBOX" = Err e ->
     get_message_execute env (PTuple [PConn ImapConn; x])
     = (Err e, [EvSelect "INBOX"])) /\
  (env_select env "INBOX" = Ok tt ->
   (forall e, env_search env None "ALL" = Err e ->
      get_message_execute env (PTuple [PConn ImapConn; x])
      = (Err e, [EvSelect "INBOX"; EvSearch None "ALL"])) /\
   (env_search env None "ALL" = Ok [] ->
      get_message_execute env (PTuple [PConn ImapConn; x])
      = (Err IndexError, [EvSelect "INBOX"; EvSearch None "ALL"])) /\
   (forall rest, env_search env None "ALL" = Ok (None :: rest) ->
      get_message_execute env (PTuple [PConn ImapConn; x])
      = (Err AttributeError, [EvSelect "INBOX"; EvSearch None "ALL"]))).
Proof.
  unfold get_message_execute, select_mail_box, search_mail_box, lift, tell.
  simpl. split.
  - intros e He. rewrite He. reflexivity.
  - intros Hs. rewrite Hs. simpl. repeat split.
    + intros e He. rewrite He. reflexivity.
    + intros He. rewrite He. reflexivity.
    + intros rest He. rewrite He. reflexivity.
Qed.

Lemma get_message_pre_enumeration_failures_witness :
  get_message_execute no_data_env session_pair
  = (Err IndexError, [EvSelect "INBOX"; EvSearch None "ALL"]).
Proof.
  apply (proj2 (get_message_pre_enumeration_failures no_data_env (PConn SmtpConn))
           eq_refl); reflexivity.
Defined.

(** ** The enumeration loop *)

Lemma for_each_num_all_ok env nums (msg_of : string -> string) :
  (forall j, In j nums -> exists d raw,
     env_fetch env j "(RFC822)" = Ok d /\ fetch_raw d = Ok raw /\
     env_decode_utf8 env raw = Ok (msg_of j)) ->
  for_each_num env (PConn ImapConn) nums
  = (Ok tt, concat (map (fun j => EvFetch j "(RFC822)" ::
                                  map EvPrint (env_header_items env (msg_of j)))
                        nums)).
Proof.
  induction nums as [|j nums IH]; intros Hall; [reflexivity|].
  destruct (Hall j (or_introl eq_refl)) as (d & raw & Hf & Hr & Hd).
  simpl. rewrite (process_num_ok env j d raw (msg_of j) Hf Hr Hd).
  rewrite bind_ok. rewrite IH; [reflexivity|].
  intros j' Hj'. apply Hall. by right.
Qed.

(** When every message number returned by the search can be fetched and
    decoded, the enumerator fetches each number exactly once, in search
    order (duplicates included), prints the header items of each message
    in turn, and closes the session once; it returns [None] unless
    [close()] raises. *)
Theorem get_message_enumerates_all env x data nums (msg_of : string -> string) :
  env_select env "INBOX" = Ok tt ->
  env_search env None "ALL" = Ok data ->
  first_split data = Ok nums ->
  (forall j, In j nums -> exists d raw,
     env_fetch env j "(RFC822)" = Ok d /\ fetch_raw d = Ok raw /\
     env_decode_utf8 env raw = Ok (msg_of j)) ->
  let '(r, t) := get_message_execute env (PTuple [PConn ImapConn; x]) in
  fetched t = nums /\
  printed t = concat (map (fun j => env_header_items env (msg_of j)) nums) /\
  close_count t = 1%nat /\
  r = match env_close env with Ok _ => Ok PNone | Err e => Err e end.
Proof.
  intros Hsel Hsearch Hsplit Hall.
  rewrite (get_message_run env x data nums Hsel Hsearch Hsplit).
  rewrite (for_each_num_all_ok env nums msg_of Hall).
  assert (Hf : forall l : list string,
    fetched (concat (map (fun j => EvFetch j "(RFC822)" ::
               map EvPrint (env_header_items env (msg_of j))) l)) = l /\
    printed (concat (map (fun j => EvFetch j "(RFC822)" ::
               map EvPrint (env_header_items env (msg_of j))) l))
    = concat (map (fun j => env_header_items env (msg_of j)) l) /\
    close_count (concat (map (fun j => EvFetch j "(RFC822)" ::
               map EvPrint (env_header_items env (msg_of j))) l)) = 0%nat).
  { induction l as [|j l (IH1 & IH2 & IH3)]; [done|]. simpl.
    rewrite fetched_app, printed_app, close_count_app, IH1, IH2, IH3.
    destruct (prints_no_fetch_no_close (env_header_items env (msg_of j))) as [F C].
    rewrite F, C. split; [reflexivity|]. split; [|reflexivity].
    f_equal. clear. induction (env_header_items env (msg_of j)); simpl; by f_equal. }
  destruct (Hf nums) as (F & P & C).
  simpl. rewrite !fetched_app, !printed_app, !close_count_app, F, P, C.
  simpl. rewrite !app_nil_r. repeat split.
Qed.

Lemma get_message_enumerates_all_witness :
  let '(r, t) := get_message_execute two_msg_env session_pair in
  fetched t = ["1"; "2"] /\
  printed t = [("From", "a@x.com"); ("Subject", "hi");
               ("From", "b@x.com"); ("Subject", "yo")] /\
  close_count t = 1%nat /\ r = Ok PNone.
Proof.
  apply (get_message_enumerates_all two_msg_env (PConn SmtpConn) [Some "1 2"]
    ["1"; "2"] (fun j => j) eq_refl eq_refl eq_refl).
  intros j [<-|[<-|[]]]; do 2 eexists; repeat split; reflexivity.
Defined.

(** ** Authentication *)

(** When both servers accept the connection and the login,
    [AuthenticationHandler.execute] connects to the IMAP host and port
    and logs in, then connects to the SMTP host and port and logs in with
    the same user name and password, and returns the pair
    (IMAP session, SMTP session). *)
Theorem auth_execute_success env (r : EmailData) :
  env_imap_connect env (imap_ssl_host r) (imap_ssl_port r) = Ok tt ->
  env_imap_login env (user_name r) (password r) = Ok tt ->
  env_smtp_connect env (smtp_ssl_host r) (smtp_ssl_port r) = Ok tt ->
  env_smtp_login env (user_name r) (password r) = Ok tt ->
  auth_execute env (PEmail r)
  = (Ok (PTuple [PConn ImapConn; PConn SmtpConn]),
     [EvImapConnect (imap_ssl_host r) (imap_ssl_port r);
      EvImapLogin (user_name r) (password r);
      EvSmtpConnect (smtp_ssl_host r) (smtp_ssl_port r);
      EvSmtpLogin (user_name r) (password r)]).
Proof.
  intros H1 H2 H3 H4. unfold auth_execute, tell, lift. simpl.
  rewrite H1. simpl. rewrite H2. simpl. rewrite H3. simpl. rewrite H4.
  reflexivity.
Qed.

Lemma auth_execute_success_witness :
  auth_execute quiet_env
    (PEmail (mkEmailData "u" "p" 993 "imap.example.org" 465 "smtp.example.org"))
  = (Ok session_pair,
     [EvImapConnect "imap.example.org" 993; EvImapLogin "u" "p";
      EvSmtpConnect "smtp.example.org" 465; EvSmtpLogin "u" "p"]).
Proof. apply auth_execute_success; reflexivity. Defined.
